(** * PPT Professional Designer: the questionnaire and scoring backend

    A shallow embedding of [webapp/api/index.py]: the response ledger of
    [PPTDesignerSystem], profile scoring, template matching, recommendation
    ranking, the implementation plan, the progress percentage and the
    [POST /api/responses] route.

    Modelling conventions:
    - JSON values (request bodies, answers) are the inductive [json]; JSON
      numbers are integers ([Z]).
    - Python text is a Rocq [string] holding its UTF-8 bytes; equality of
      such strings is equality of the Python strings.
    - [str.lower] is Python's Unicode lowercasing. Template matching and
      ranking are defined in the section [Lowercasing] over a variable
      [str_lower] standing for it, so their theorems hold for Python's
      [str.lower]; concrete runs use [ascii_lower] on text where the two
      agree.
    - Python floats used for scores are exact rationals ([Q]); match scores
      are small integers, exact in floating point, and are kept in [Z].
    - A Python [dict] keyed by question identifier is an association list
      with the insertion order of a Python dict.
    - Code that may raise returns [option]; [None] is the raised exception. *)

From Stdlib Require Import String Ascii List ZArith QArith Bool Lia.
From Stdlib Require Import Sorting.Sorted Sorting.Permutation.
Import ListNotations.
Open Scope string_scope.
Set Warnings "-register-all".

(** ** JSON values and Python truthiness *)

Inductive json : Type :=
| JNull
| JBool (b : bool)
| JNum (n : Z)
| JStr (s : string)
| JList (l : list json)
| JObj (fields : list (string * json)).

(** [bool(v)] in Python: [None], [False], [0], [""], [[]] and [{}] are falsy. *)
Definition truthy (v : json) : bool :=
  match v with
  | JNull => false
  | JBool b => b
  | JNum n => negb (Z.eqb n 0)
  | JStr s => negb (String.eqb s "")
  | JList l => negb (Nat.eqb (length l) 0)
  | JObj o => negb (Nat.eqb (length o) 0)
  end.

(** [v in xs] for a list [xs] of Python strings: [==] holds only between a
    string and an equal string. *)
Definition json_in_strs (v : json) (xs : list string) : bool :=
  match v with
  | JStr s => existsb (String.eqb s) xs
  | _ => false
  end.

(** Python's [min(a, b)]: [b] replaces [a] only when [b < a]. *)
Definition py_min_Q (a b : Q) : Q := if Qlt_le_dec b a then b else a.
Definition py_min_Z (a b : Z) : Z := if Z.ltb b a then b else a.

(** [str.lower()] restricted to ASCII: A-Z become a-z and every other
    byte is left as it is. It agrees with Python's [str.lower] on text
    whose non-ASCII characters have no lowercase mapping (Hangul, or the
    capital letter U+210C, whose lowercase is itself), and is used only to
    run the model on such text. *)
Definition lower_char (c : ascii) : ascii :=
  let n := nat_of_ascii c in
  if (Nat.leb 65 n && Nat.leb n 90)%bool then ascii_of_nat (n + 32) else c.

Fixpoint ascii_lower (s : string) : string :=
  match s with
  | EmptyString => EmptyString
  | String c r => String (lower_char c) (ascii_lower r)
  end.

(** [s.split('.')]: [""] splits to [[""]], every dot starts a new part. *)
Fixpoint split_dot (s : string) : list string :=
  match s with
  | EmptyString => [""]
  | String c r =>
      let parts := split_dot r in
      if Ascii.eqb c "."%char then "" :: parts
      else match parts with
           | p :: ps => String c p :: ps
           | [] => [String c ""]
           end
  end.

(** ** The response ledger: [Dict[str, Dict]] *)

Record entry : Type := mkEntry {
  question_id_of : string;
  response : json;
  additional_details : json;
  timestamp : string
}.

Definition ledger := list (string * entry).

(** [d.get(k)]. *)
Fixpoint dict_get {V} (k : string) (d : list (string * V)) : option V :=
  match d with
  | [] => None
  | (k', v) :: t => if String.eqb k k' then Some v else dict_get k t
  end.

(** [d[k] = v]: an existing key keeps its place, a new key goes last. *)
Fixpoint dict_set {V} (k : string) (v : V) (d : list (string * V))
  : list (string * V) :=
  match d with
  | [] => [(k, v)]
  | (k', v') :: t =>
      if String.eqb k k' then (k, v) :: t else (k', v') :: dict_set k v t
  end.

(** [k in d]. *)
Definition dict_mem {V} (k : string) (d : list (string * V)) : bool :=
  match dict_get k d with Some _ => true | None => false end.

(** ** Configuration ([ppt_designer_system.json]) *)

(** The fields of a question record the code reads. *)
Record question : Type := mkQuestion {
  question_id : string;
  required : bool;
  weight : Z
}.

(** An implementation roadmap; each field may be absent from the document. *)
Record roadmap : Type := mkRoadmap {
  steps : option (list json);
  resources : option json;
  customization_level : option json
}.

(** A section: its [strategic_questions] and, in the fifth phase, the
    [implementation_roadmaps] table ([None] when the key is absent). *)
Record section : Type := mkSection {
  strategic_questions : list question;
  implementation_roadmaps : option (list (string * roadmap))
}.

Record phase : Type := mkPhase { sections : list section }.

Inductive category : Type :=
| content_goals
| audience_context
| design_preferences
| technical_requirements
| timeline_resources
| scalability.

Definition category_eqb (a b : category) : bool :=
  match a, b with
  | content_goals, content_goals
  | audience_context, audience_context
  | design_preferences, design_preferences
  | technical_requirements, technical_requirements
  | timeline_resources, timeline_resources
  | scalability, scalability => true
  | _, _ => false
  end.

Definition all_categories : list category :=
  [content_goals; audience_context; design_preferences;
   technical_requirements; timeline_resources; scalability].

Record config : Type := mkConfig {
  workflow_phases : list phase;
  (** [scoring_system.weight_distribution]: the per-category maximum *)
  weight_distribution : category -> Q
}.

(** ** The system object *)

Record recommendation : Type := mkRecommendation {
  template_name : string;
  template_url : string;
  match_score : Z;
  rec_style_tags : list string;
  rec_pros : list string;
  rec_cons : list string;
  customization_difficulty : string;
  preview_image : option string
}.

Record system : Type := mkSystem {
  sys_config : config;
  user_responses : ledger;
  recommendations : list recommendation
}.

(** [get_all_questions]. *)
Definition get_all_questions (cfg : config) : list question :=
  flat_map (fun ph => flat_map strategic_questions (sections ph))
    (workflow_phases cfg).

(** [get_questions_by_phase]: phases are numbered from 1; an identifier
    outside [1, len(workflow_phases)] gives the empty list. *)
Definition get_questions_by_phase (cfg : config) (phase_id : Z) : list question :=
  if (Z.ltb 0 phase_id && Z.leb phase_id (Z.of_nat (length (workflow_phases cfg))))%bool
  then match nth_error (workflow_phases cfg) (Z.to_nat (phase_id - 1)) with
       | Some ph => flat_map strategic_questions (sections ph)
       | None => []
       end
  else [].

(** [submit_response]: [now] is [datetime.now().isoformat()]. *)
Definition submit_response (s : system) (question_id : string) (resp : json)
    (details : json) (now : string) : system * bool :=
  let user_response := mkEntry question_id resp details now in
  (mkSystem (sys_config s) (dict_set question_id user_response (user_responses s))
     (recommendations s), true).

(** ** [calculate_profile_score] *)

Definition category_mapping : list (string * category) :=
  [("q1.1", content_goals); ("q1.2", audience_context);
   ("q1.3", design_preferences); ("q2.1", design_preferences);
   ("q2.2", technical_requirements); ("q3.1", content_goals);
   ("q3.2", audience_context); ("q4.1", technical_requirements);
   ("q4.2", technical_requirements); ("q5.1", timeline_resources);
   ("q5.2", scalability)].

(** ['.'.join(question_id.split('.')[:2])]. *)
Definition prefix (question_id : string) : string :=
  String.concat "." (firstn 2 (split_dot question_id)).

(** [_find_question]: the nested loops return the first match. *)
Fixpoint find_in_questions (qid : string) (qs : list question) : option question :=
  match qs with
  | [] => None
  | q :: t => if String.eqb (question_id q) qid then Some q else find_in_questions qid t
  end.

Fixpoint find_in_sections (qid : string) (ss : list section) : option question :=
  match ss with
  | [] => None
  | sec :: t =>
      match find_in_questions qid (strategic_questions sec) with
      | Some q => Some q
      | None => find_in_sections qid t
      end
  end.

Fixpoint find_in_phases (qid : string) (ps : list phase) : option question :=
  match ps with
  | [] => None
  | ph :: t =>
      match find_in_sections qid (sections ph) with
      | Some q => Some q
      | None => find_in_phases qid t
      end
  end.

Definition find_question (cfg : config) (qid : string) : option question :=
  find_in_phases qid (workflow_phases cfg).

Definition scores := category -> Q.

(** [scores[category] += v]. *)
Definition scores_add (sc : scores) (c : category) (v : Q) : scores :=
  fun c' => if category_eqb c c' then sc c' + v else sc c'.

(** One iteration of the loop over [self.user_responses.items()]. *)
Definition profile_step (cfg : config) (sc : scores) (item : string * entry) : scores :=
  let (qid, r) := item in
  match dict_get (prefix qid) category_mapping with
  | Some cat =>
      if truthy (response r) then
        match find_question cfg qid with
        | Some q => scores_add sc cat (inject_Z (weight q) / 10)
        | None => sc
        end
      else sc
  | None => sc
  end.

Definition calculate_profile_score (s : system) : scores :=
  let cfg := sys_config s in
  let acc := fold_left (profile_step cfg) (user_responses s) (fun _ => 0) in
  fun cat => py_min_Q (acc cat * 2) (weight_distribution cfg cat).

(** ** [calculate_template_match_score] *)

Section Lowercasing.

(** Python's [str.lower]. *)
Variable str_lower : string -> string.

(** A catalog entry; list fields absent from the dict are [[]]
    ([template_data.get(..., [])]), optional ones [None]. *)
Record template : Type := mkTemplate {
  name : string;
  url : string;
  style_tags : list string;
  color_schemes : list string;
  suitable_for : list string;
  compatible_versions : list string;
  pros : list string;
  cons : list string;
  difficulty : option string;
  t_preview_image : option string
}.

Record match_factors : Type := mkFactors {
  style_match : Z;
  color_match : Z;
  functionality_match : Z;
  technical_compatibility : Z
}.

(** [user_style['response'].lower() in style_tags]: [.lower()] exists only
    on strings, any other answer raises [AttributeError]. *)
Definition style_check (L : ledger) (t : template) : option Z :=
  match dict_get "q2.1.1" L with
  | None => Some 0%Z
  | Some user_style =>
      match response user_style with
      | JStr a => Some (if existsb (String.eqb (str_lower a)) (style_tags t) then 25 else 0)%Z
      | _ => None
      end
  end.

(** [user_x and user_x['response'] in field] worth [points]. *)
Definition member_check (L : ledger) (qid : string) (field : list string) (points : Z) : Z :=
  match dict_get qid L with
  | Some user_x => if json_in_strs (response user_x) field then points else 0%Z
  | None => 0%Z
  end.

Definition compute_match_factors (L : ledger) (t : template) : option match_factors :=
  match style_check L t with
  | None => None
  | Some st =>
      Some (mkFactors st
              (member_check L "q1.3.2" (color_schemes t) 20%Z)
              (member_check L "q1.1.1" (suitable_for t) 30%Z)
              (member_check L "q2.2.1" (compatible_versions t) 25%Z))
  end.

Definition calculate_template_match_score (s : system) (t : template) : option Z :=
  match compute_match_factors (user_responses s) t with
  | None => None
  | Some mf =>
      let final_score := (style_match mf + color_match mf + functionality_match mf
                          + technical_compatibility mf)%Z in
      Some (py_min_Z final_score 100%Z)
  end.

(** ** [generate_recommendations] *)

Definition make_recommendation (t : template) (score : Z) : recommendation :=
  mkRecommendation (name t) (url t) score (style_tags t) (pros t) (cons t)
    (match difficulty t with Some d => d | None => "medium" end)
    (t_preview_image t).

(** The loop building [recommendations]; the first raising template stops it. *)
Fixpoint build_recommendations (s : system) (db : list template)
  : option (list recommendation) :=
  match db with
  | [] => Some []
  | t :: rest =>
      match calculate_template_match_score s t with
      | None => None
      | Some score =>
          match build_recommendations s rest with
          | None => None
          | Some rs => Some (make_recommendation t score :: rs)
          end
      end
  end.

(** [list.sort(key=match_score, reverse=True)]: Python's sort is stable and
    [reverse=True] keeps equal elements in their original order. Modelled as
    an insertion sort that puts a later element after every element whose
    key is not smaller. *)
Fixpoint insert_desc (x : recommendation) (l : list recommendation) : list recommendation :=
  match l with
  | [] => [x]
  | y :: t => if Z.ltb (match_score y) (match_score x) then x :: y :: t
              else y :: insert_desc x t
  end.

Definition sort_desc (l : list recommendation) : list recommendation :=
  fold_left (fun acc x => insert_desc x acc) l [].

(** Returns the new state ([self.recommendations] set to the full ranked
    list) and [recommendations[:10]]; [None] when a match score raises, in
    which case the state is left as it was. *)
Definition generate_recommendations (s : system) (db : list template)
  : option (system * list recommendation) :=
  match build_recommendations s db with
  | None => None
  | Some recs =>
      let ranked := sort_desc recs in
      Some (mkSystem (sys_config s) (user_responses s) ranked, firstn 10 ranked)
  end.

(** ** [generate_implementation_plan] *)

Record plan : Type := mkPlan {
  plan_timeline : json;
  plan_experience_level : json;
  plan_phases : list json;
  plan_resources_needed : list json;
  plan_estimated_hours : Z;
  (** [None] when the key [customization_level] is not set *)
  plan_customization_level : option json
}.

(** Lists and dicts are unhashable: using one as a dict key raises. *)
Definition hashable (v : json) : bool :=
  match v with JList _ | JObj _ => false | _ => true end.

Definition timeline_table : list (string * string) :=
  [("1일", "tight_timeline_1day"); ("1주", "standard_timeline_1week");
   ("1개월", "extended_timeline_1month")].

(** [{...}.get(timeline['response'], 'standard_timeline_1week')]. *)
Definition timeline_key (v : json) : option string :=
  if hashable v then
    Some (match v with
          | JStr s => match dict_get s timeline_table with
                      | Some k => k
                      | None => "standard_timeline_1week"
                      end
          | _ => "standard_timeline_1week"
          end)
  else None.

(** [self.config['workflow_phases'][4]['sections'][0]['implementation_roadmaps']]. *)
Definition roadmaps_of (cfg : config) : option (list (string * roadmap)) :=
  match nth_error (workflow_phases cfg) 4 with
  | None => None
  | Some ph =>
      match nth_error (sections ph) 0 with
      | None => None
      | Some sec => implementation_roadmaps sec
      end
  end.

Definition empty_roadmap : roadmap := mkRoadmap None None None.

Definition generate_implementation_plan (s : system) : option plan :=
  let L := user_responses s in
  let timeline := dict_get "q5.1.1" L in
  let experience := dict_get "q5.1.2" L in
  let tl := match timeline with Some e => response e | None => JStr "1주" end in
  let ex := match experience with Some e => response e | None => JStr "중급자" end in
  match timeline with
  | None => Some (mkPlan tl ex [] [] 0%Z None)
  | Some e =>
      match timeline_key (response e) with
      | None => None
      | Some key =>
          match roadmaps_of (sys_config s) with
          | None => None
          | Some table =>
              let rm := match dict_get key table with
                        | Some r => r
                        | None => empty_roadmap
                        end in
              Some (mkPlan tl ex
                      (match steps rm with Some l => l | None => [] end)
                      [match resources rm with Some r => r | None => JStr "" end]
                      0%Z
                      (Some (match customization_level rm with
                             | Some c => c
                             | None => JStr "moderate"
                             end)))
          end
      end
  end.

(** ** [get_progress_percentage] *)

Definition get_progress_percentage (s : system) : Q :=
  let required_questions := filter required (get_all_questions (sys_config s)) in
  let answered_required :=
    length (filter (fun q => dict_mem (question_id q) (user_responses s))
              required_questions) in
  if Nat.eqb (length required_questions) 0 then 100
  else inject_Z (Z.of_nat answered_required)
       / inject_Z (Z.of_nat (length required_questions)) * 100.

(** ** The [POST /api/responses] route *)

(** [data.get(k)] on a dict decoded from JSON: a repeated key keeps its
    last value; a missing key gives [None]. *)
Fixpoint obj_get (k : string) (o : list (string * json)) : option json :=
  match o with
  | [] => None
  | (k', v) :: t =>
      match obj_get k t with
      | Some v' => Some v'
      | None => if String.eqb k k' then Some v else None
      end
  end.

Definition py_get (k : string) (o : list (string * json)) : json :=
  match obj_get k o with Some v => v | None => JNull end.

(** What the handler ends in. [RecordedOtherKey]: a truthy hashable
    [question_id] that is not a string (a number or [true]) is stored under
    that non-string key, outside the ledger's declared [Dict[str, Dict]]
    type, and the handler answers 200. *)
Inductive route_outcome : Type :=
| BadRequest
| ServerError
| Recorded (s' : system) (success : bool)
| RecordedOtherKey.

Definition status_code (o : route_outcome) : Z :=
  match o with
  | BadRequest => 400
  | ServerError => 500
  | Recorded _ _ | RecordedOtherKey => 200
  end.

(** [data = request.get_json()], given as the decoded body; [data.get]
    exists only on dicts, otherwise [AttributeError] gives 500. *)
Definition submit_response_route (s : system) (data : json) (now : string) : route_outcome :=
  match data with
  | JObj o =>
      let question_id := py_get "question_id" o in
      let resp := py_get "response" o in
      let additional_details := py_get "additional_details" o in
      if negb (truthy question_id) || match resp with JNull => true | _ => false end
      then BadRequest
      else match question_id with
           | JStr k =>
               let (s', success) := submit_response s k resp additional_details now in
               Recorded s' success
           | JList _ | JObj _ => ServerError
           | _ => RecordedOtherKey
           end
  | _ => ServerError
  end.

(** ** Concrete data *)

(** [MOCK_TEMPLATES]. *)
Definition MOCK_TEMPLATES : list template :=
  [mkTemplate "Minimal Beige Professional" "https://example.com/template1"
     ["minimal"; "modern"; "professional"] ["beige_orange"] ["교육"; "정보 전달"]
     ["2019"; "2021"; "Microsoft 365"]
     ["깔끔한 디자인"; "쉬운 편집"; "다양한 레이아웃"] ["애니메이션 제한적"]
     (Some "easy") (Some "https://example.com/preview1.jpg");
   mkTemplate "Modern Education Template" "https://example.com/template2"
     ["modern"; "creative"; "educational"] ["beige_orange"; "blue_gray"] ["교육"; "발표"]
     ["2016"; "2019"; "2021"; "Microsoft 365"]
     ["학생 친화적"; "시각적 요소 풍부"; "접근성 우수"] ["파일 크기 큼"]
     (Some "medium") (Some "https://example.com/preview2.jpg")].

(** A small configuration document with five phases; the fifth phase's
    first section carries the roadmap table. *)
Definition sample_roadmaps : list (string * roadmap) :=
  [("tight_timeline_1day",
     mkRoadmap (Some [JStr "pick template"; JStr "fill content"]) (Some (JStr "1 designer"))
       (Some (JStr "minimal")));
   ("standard_timeline_1week",
     mkRoadmap (Some [JStr "plan"; JStr "customize"; JStr "review"]) (Some (JStr "team"))
       (Some (JStr "moderate")));
   ("extended_timeline_1month",
     mkRoadmap (Some [JStr "research"; JStr "design system"]) (Some (JStr "agency"))
       (Some (JStr "full")))].

Definition sample_max (c : category) : Q :=
  match c with
  | content_goals => 25
  | audience_context => 20
  | design_preferences => 20
  | technical_requirements => 15
  | timeline_resources => 10
  | scalability => 10
  end.

Definition sample_config : config :=
  mkConfig
    [mkPhase [mkSection [mkQuestion "q1.1.1" true 10; mkQuestion "q1.3.2" true 8] None];
     mkPhase [mkSection [mkQuestion "q2.1.1" true 9; mkQuestion "q2.2.1" false 7] None];
     mkPhase [mkSection [mkQuestion "q3.1.1" false 5] None];
     mkPhase [mkSection [mkQuestion "q4.1.1" false 6] None];
     mkPhase [mkSection [mkQuestion "q5.1.1" true 10; mkQuestion "q5.1.2" false 4]
                (Some sample_roadmaps)]]
    sample_max.

Definition fresh_system : system := mkSystem sample_config [] [].

(** Submitting a list of [(question_id, response)] pairs at one instant. *)
Definition submit_all (s : system) (rs : list (string * json)) : system :=
  fold_left (fun acc '(k, v) => fst (submit_response acc k v JNull "2026-01-01T00:00:00"))
    rs s.

Definition answered_system : system :=
  submit_all fresh_system
    [("q2.1.1", JStr "Minimal"); ("q1.3.2", JStr "beige_orange");
     ("q1.1.1", JStr "교육"); ("q2.2.1", JStr "2019"); ("q5.1.1", JStr "1일")].

(** ** Sanity checks on concrete inputs *)

Example split_dot_ex : split_dot "q1.2.3" = ["q1"; "2"; "3"].
Proof. reflexivity. Qed.

Example prefix_ex : prefix "q5.1.1" = "q5.1".
Proof. reflexivity. Qed.

Example ascii_lower_ex : ascii_lower "MiNimal" = "minimal".
Proof. reflexivity. Qed.

Example progress_ex : get_progress_percentage answered_system == 100.
Proof. reflexivity. Qed.

Example profile_ex :
  calculate_profile_score answered_system content_goals == 2.
Proof. reflexivity. Qed.

Example plan_ex :
  option_map plan_customization_level (generate_implementation_plan answered_system)
  = Some (Some (JStr "minimal")).
Proof. reflexivity. Qed.

(** ** Profile scoring *)

(** What one recorded response adds to [cat] under the amended C1: its
    prefix maps to [cat], its answer is truthy and its question is found in
    the configuration. *)
Definition contribution (cfg : config) (cat : category) (item : string * entry) : list Q :=
  let (qid, r) := item in
  match dict_get (prefix qid) category_mapping, find_question cfg qid with
  | Some c, Some q =>
      if category_eqb c cat && truthy (response r)
      then [inject_Z (weight q) / 10] else []
  | _, _ => []
  end.

Definition contributions (cfg : config) (cat : category) (L : ledger) : list Q :=
  flat_map (contribution cfg cat) L.

Definition Qsum (l : list Q) : Q := fold_right Qplus 0 l.

Lemma category_eqb_spec (a b : category) : category_eqb a b = true <-> a = b.
Proof. destruct a, b; simpl; split; congruence. Qed.

Lemma py_min_Q_compat (a a' b : Q) : a == a' -> py_min_Q a b == py_min_Q a' b.
Proof.
  intro E. unfold py_min_Q.
  destruct (Qlt_le_dec b a) as [H1|H1], (Qlt_le_dec b a') as [H2|H2].
  - reflexivity.
  - rewrite E in H1. exfalso. apply (Qlt_not_le b a'); assumption.
  - rewrite E in H1. exfalso. apply (Qlt_not_le b a'); assumption.
  - exact E.
Qed.

Lemma Qsum_app (l1 l2 : list Q) : Qsum (l1 ++ l2) == Qsum l1 + Qsum l2.
Proof.
  induction l1 as [|x l1 IH]; unfold Qsum in *; simpl; [ring|].
  rewrite IH. ring.
Qed.

Lemma profile_step_total (cfg : config) (cat : category) (acc : scores) item :
  profile_step cfg acc item cat == acc cat + Qsum (contribution cfg cat item).
Proof.
  destruct item as [qid r]. unfold profile_step, contribution.
  destruct (dict_get (prefix qid) category_mapping) as [c|];
    [|unfold Qsum; simpl; ring].
  destruct (find_question cfg qid) as [q|];
    destruct (truthy (response r)); rewrite ?andb_true_r, ?andb_false_r;
    try (unfold Qsum; simpl; ring).
  unfold scores_add. destruct (category_eqb c cat); unfold Qsum; simpl; ring.
Qed.

Lemma profile_fold_total (cfg : config) (cat : category) (L : ledger) (acc : scores) :
  fold_left (profile_step cfg) L acc cat == acc cat + Qsum (contributions cfg cat L).
Proof.
  revert acc. induction L as [|item L IH]; intro acc.
  - unfold Qsum; simpl. ring.
  - cbn [fold_left]. rewrite IH. unfold contributions. cbn [flat_map].
    rewrite Qsum_app, profile_step_total. fold (contributions cfg cat L). ring.
Qed.

Lemma find_in_questions_in (qid : string) (qs : list question) (q : question) :
  find_in_questions qid qs = Some q -> In q qs.
Proof.
  induction qs as [|q' qs IH]; simpl; [discriminate|].
  destruct (String.eqb (question_id q') qid); [intros [= <-]; now left|].
  intro H. right. exact (IH H).
Qed.

Lemma find_in_sections_in (qid : string) (ss : list section) (q : question) :
  find_in_sections qid ss = Some q -> In q (flat_map strategic_questions ss).
Proof.
  induction ss as [|sec ss IH]; simpl; [discriminate|].
  destruct (find_in_questions qid (strategic_questions sec)) as [q'|] eqn:E.
  - intros [= <-]. apply in_or_app. left. exact (find_in_questions_in _ _ _ E).
  - intro H. apply in_or_app. right. exact (IH H).
Qed.

Lemma find_question_in (cfg : config) (qid : string) (q : question) :
  find_question cfg qid = Some q -> In q (get_all_questions cfg).
Proof.
  unfold find_question, get_all_questions.
  induction (workflow_phases cfg) as [|ph ps IH]; simpl; [discriminate|].
  destruct (find_in_sections qid (sections ph)) as [q'|] eqn:E.
  - intros [= <-]. apply in_or_app. left. exact (find_in_sections_in _ _ _ E).
  - intro H. apply in_or_app. right. exact (IH H).
Qed.

Lemma contributions_nonneg (cfg : config) (cat : category) (L : ledger) :
  (forall q, In q (get_all_questions cfg) -> (0 <= weight q)%Z) ->
  0 <= Qsum (contributions cfg cat L).
Proof.
  intro Hw. induction L as [|[qid r] L IH].
  - unfold Qsum; simpl. apply Qle_refl.
  - unfold contributions; cbn [flat_map]. rewrite Qsum_app.
    fold (contributions cfg cat L).
    apply (Qle_trans _ (0 + 0)); [apply Qle_refl|].
    apply Qplus_le_compat; [|exact IH].
    unfold contribution.
    destruct (dict_get (prefix qid) category_mapping) as [c|];
      [|unfold Qsum; simpl; apply Qle_refl].
    destruct (find_question cfg qid) as [q|] eqn:Hq;
      [|unfold Qsum; simpl; apply Qle_refl].
    destruct (category_eqb c cat && truthy (response r));
      unfold Qsum; simpl; [|apply Qle_refl].
    rewrite Qplus_0_r.
    apply Qle_shift_div_l; [reflexivity|].
    rewrite Qmult_0_l. change 0 with (inject_Z 0). rewrite <- Zle_Qle.
    exact (Hw q (find_question_in _ _ _ Hq)).
Qed.

Lemma py_min_Q_bounds (a b : Q) : 0 <= a -> 0 <= b -> 0 <= py_min_Q a b <= b.
Proof.
  intros Ha Hb. unfold py_min_Q.
  destruct (Qlt_le_dec b a) as [H|H]; split; auto using Qle_refl.
Qed.

(** ** Claim theorems *)

(** C1 (amended): [calculate_profile_score] gives each category the
    clamped double of the sum of [question.weight / 10] over the recorded
    responses whose two-segment prefix maps to that category in the
    eleven-entry table, whose answer is truthy, and whose identifier is
    found in the configuration (first match); other responses add nothing. *)
Theorem calculate_profile_score_spec (s : system) (cat : category) :
  calculate_profile_score s cat
  == py_min_Q (Qsum (contributions (sys_config s) cat (user_responses s)) * 2)
              (weight_distribution (sys_config s) cat).
Proof.
  unfold calculate_profile_score. apply py_min_Q_compat.
  rewrite profile_fold_total. ring.
Qed.

(** C1 (counterexample): the response ["q1.1.9"] passes both conditions of
    the claim (prefix ["q1.1"] is in the table, the answer is truthy) but no
    question of the configuration has that identifier, so there is no
    [question.weight] to add and it contributes nothing. *)
Lemma calculate_profile_score_unconfigured_question :
  let s := fst (submit_response fresh_system "q1.1.9" (JStr "yes") JNull "t") in
  dict_get (prefix "q1.1.9") category_mapping = Some content_goals
  /\ truthy (JStr "yes") = true
  /\ find_question (sys_config s) "q1.1.9" = None
  /\ calculate_profile_score s content_goals == 0.
Proof. vm_compute. repeat split; reflexivity. Qed.

(** C5: with non-negative question weights and per-category maxima, every
    category score is between 0 and its configured maximum. *)
Theorem calculate_profile_score_bounded (s : system)
    (Hw : forall q, In q (get_all_questions (sys_config s)) -> (0 <= weight q)%Z)
    (Hmax : forall c, 0 <= weight_distribution (sys_config s) c) :
  forall c, 0 <= calculate_profile_score s c <= weight_distribution (sys_config s) c.
Proof.
  intro c. unfold calculate_profile_score.
  apply py_min_Q_bounds; [|apply Hmax].
  rewrite profile_fold_total.
  apply (Qle_trans _ (0 * 2)); [apply Qle_refl|].
  apply Qmult_le_compat_r; [|discriminate].
  apply (Qle_trans _ (0 + 0)); [apply Qle_refl|].
  apply Qplus_le_compat; [apply Qle_refl|].
  apply contributions_nonneg; exact Hw.
Qed.

Lemma calculate_profile_score_bounded_witness :
  (forall q, In q (get_all_questions (sys_config answered_system)) -> (0 <= weight q)%Z)
  /\ (forall c, 0 <= weight_distribution (sys_config answered_system) c)
  /\ 0 <= calculate_profile_score answered_system content_goals
       <= weight_distribution (sys_config answered_system) content_goals.
Proof.
  assert (Hw : forall q, In q (get_all_questions (sys_config answered_system)) ->
                         (0 <= weight q)%Z).
  { intros q Hq. apply Z.leb_le. revert q Hq.
    apply (proj1 (forallb_forall (fun q => Z.leb 0 (weight q)) _)). vm_compute. reflexivity. }
  assert (Hm : forall c, 0 <= weight_distribution (sys_config answered_system) c).
  { intros []; vm_compute; discriminate. }
  split; [exact Hw|]. split; [exact Hm|].
  exact (calculate_profile_score_bounded answered_system Hw Hm content_goals).
Defined.

(** ** Template matching *)

(** The recorded [q2.1.1] answer, if any, is a string. *)
Definition style_ok (L : ledger) : Prop :=
  forall e, dict_get "q2.1.1" L = Some e -> exists a, response e = JStr a.

(** The four checks as the claims word them. *)
Definition style_satisfied (L : ledger) (t : template) : bool :=
  match dict_get "q2.1.1" L with
  | Some e => match response e with
              | JStr a => existsb (String.eqb (str_lower a)) (style_tags t)
              | _ => false
              end
  | None => false
  end.

Definition answer_among (L : ledger) (qid : string) (xs : list string) : bool :=
  match dict_get qid L with
  | Some e => json_in_strs (response e) xs
  | None => false
  end.

Definition claimed_match_sum (L : ledger) (t : template) : Z :=
  ((if style_satisfied L t then 25 else 0)
   + (if answer_among L "q1.3.2" (color_schemes t) then 20 else 0)
   + (if answer_among L "q1.1.1" (suitable_for t) then 30 else 0)
   + (if answer_among L "q2.2.1" (compatible_versions t) then 25 else 0))%Z.

Definition has_ascii_upper (s : string) : bool :=
  existsb (fun c => (Nat.leb 65 (nat_of_ascii c) && Nat.leb (nat_of_ascii c) 90)%bool)
    (list_ascii_of_string s).

Lemma style_check_none (L : ledger) (t : template) :
  style_check L t = None <-> ~ style_ok L.
Proof.
  unfold style_check, style_ok. split.
  - destruct (dict_get "q2.1.1" L) as [e|] eqn:He; [|discriminate].
    destruct (response e) eqn:Hr; try discriminate;
      intros _ H; destruct (H e eq_refl) as [a Ha]; congruence.
  - intro H. destruct (dict_get "q2.1.1" L) as [e|] eqn:He.
    + destruct (response e) eqn:Hr; try reflexivity.
      exfalso. apply H. intros e' [= <-]. eauto.
    + exfalso. apply H. discriminate.
Qed.

Lemma member_check_spec (L : ledger) (qid : string) (xs : list string) (p : Z) :
  member_check L qid xs p = if answer_among L qid xs then p else 0%Z.
Proof.
  unfold member_check, answer_among. destruct (dict_get qid L); reflexivity.
Qed.

Lemma calculate_template_match_score_bounds (s : system) (t : template) (v : Z) :
  calculate_template_match_score s t = Some v -> (0 <= v <= 100)%Z.
Proof.
  unfold calculate_template_match_score, compute_match_factors.
  destruct (style_check (user_responses s) t) as [st|] eqn:Hs; [|discriminate].
  assert (Hst : st = 0%Z \/ st = 25%Z).
  { unfold style_check in Hs.
    destruct (dict_get "q2.1.1" (user_responses s)) as [e|]; [|injection Hs; auto].
    destruct (response e); try discriminate.
    destruct (existsb _ _); injection Hs; auto. }
  rewrite !member_check_spec. intros [= <-]. cbn [style_match color_match
    functionality_match technical_compatibility].
  unfold py_min_Z.
  destruct (answer_among _ "q1.3.2" _), (answer_among _ "q1.1.1" _),
    (answer_among _ "q2.2.1" _); destruct Hst as [-> | ->];
    destruct (Z.ltb _ _) eqn:Hlt; try (apply Z.ltb_lt in Hlt);
    try (apply Z.ltb_ge in Hlt); lia.
Qed.

(** C2 (amended): a recorded [q2.1.1] answer that is not a string makes
    [calculate_template_match_score] raise; otherwise the score is the sum
    of 25 (style), 20 (color), 30 (goal) and 25 (version) for the satisfied
    checks, clamped to at most 100, and it is exactly 100 when all four
    checks are satisfied. *)
Theorem calculate_template_match_score_spec (s : system) (t : template) :
  (calculate_template_match_score s t = None <-> ~ style_ok (user_responses s))
  /\ (style_ok (user_responses s) ->
      calculate_template_match_score s t
        = Some (Z.min (claimed_match_sum (user_responses s) t) 100)
      /\ (style_satisfied (user_responses s) t
          && answer_among (user_responses s) "q1.3.2" (color_schemes t)
          && answer_among (user_responses s) "q1.1.1" (suitable_for t)
          && answer_among (user_responses s) "q2.2.1" (compatible_versions t) = true ->
          calculate_template_match_score s t = Some 100%Z)).
Proof.
  assert (Hmain : style_ok (user_responses s) ->
      calculate_template_match_score s t
        = Some (Z.min (claimed_match_sum (user_responses s) t) 100)).
  { intro Hok. unfold calculate_template_match_score, compute_match_factors.
    destruct (style_check (user_responses s) t) as [st|] eqn:Hs.
    2:{ exfalso. apply (proj1 (style_check_none _ t) Hs). exact Hok. }
    rewrite !member_check_spec. cbn [style_match color_match
      functionality_match technical_compatibility].
    unfold claimed_match_sum.
    assert (Hst : st = if style_satisfied (user_responses s) t then 25%Z else 0%Z).
    { unfold style_check in Hs; unfold style_satisfied.
      destruct (dict_get "q2.1.1" (user_responses s)) as [e|]; [|injection Hs; auto].
      destruct (response e); try discriminate. injection Hs; auto. }
    subst st. f_equal. unfold py_min_Z.
    destruct (Z.ltb _ _) eqn:Hlt;
      [apply Z.ltb_lt in Hlt | apply Z.ltb_ge in Hlt]; lia. }
  split.
  - unfold calculate_template_match_score, compute_match_factors.
    rewrite <- (style_check_none _ t).
    destruct (style_check (user_responses s) t); split; intro H;
      first [reflexivity | discriminate H].
  - intro Hok. split; [exact (Hmain Hok)|].
    intro Hall. rewrite (Hmain Hok). unfold claimed_match_sum.
    apply andb_prop in Hall as [Hall H4]. apply andb_prop in Hall as [Hall H3].
    apply andb_prop in Hall as [H1 H2]. rewrite H1, H2, H3, H4. reflexivity.
Qed.

(** C8: two ledgers with the same entries for [q2.1.1], [q1.3.2], [q1.1.1]
    and [q2.2.1] (including absence) give every template the same match
    score; no other response is read. *)
Theorem calculate_template_match_score_noninterference (s1 s2 : system) (t : template)
    (Hagree : forall k, In k ["q2.1.1"; "q1.3.2"; "q1.1.1"; "q2.2.1"] ->
                        dict_get k (user_responses s1) = dict_get k (user_responses s2)) :
  calculate_template_match_score s1 t = calculate_template_match_score s2 t.
Proof.
  unfold calculate_template_match_score, compute_match_factors, style_check, member_check.
  rewrite (Hagree "q2.1.1"), (Hagree "q1.3.2"), (Hagree "q1.1.1"), (Hagree "q2.2.1");
    simpl; auto 6.
Qed.

Lemma lower_char_not_upper (c : ascii) :
  (Nat.leb 65 (nat_of_ascii (lower_char c)) && Nat.leb (nat_of_ascii (lower_char c)) 90)%bool
  = false.
Proof.
  unfold lower_char.
  destruct (Nat.leb 65 (nat_of_ascii c) && Nat.leb (nat_of_ascii c) 90)%bool eqn:H.
  - apply andb_prop in H as [H1 H2]. apply Nat.leb_le in H1, H2.
    rewrite nat_ascii_embedding by lia.
    apply andb_false_intro2. apply Nat.leb_gt. lia.
  - exact H.
Qed.

Lemma ascii_lower_no_upper (a : string) : has_ascii_upper (ascii_lower a) = false.
Proof.
  unfold has_ascii_upper.
  induction a as [|c a IH]; [reflexivity|].
  cbn [ascii_lower list_ascii_of_string existsb]. rewrite lower_char_not_upper. exact IH.
Qed.

Lemma answer_among_spec (L : ledger) (qid : string) (xs : list string) :
  answer_among L qid xs = true
  <-> exists e c, dict_get qid L = Some e /\ response e = JStr c /\ In c xs.
Proof.
  unfold answer_among. split.
  - destruct (dict_get qid L) as [e|]; [|discriminate].
    destruct (response e) as [| | |c| |] eqn:Hr; try discriminate.
    intro H. apply existsb_exists in H as [x [Hx Heq]].
    apply String.eqb_eq in Heq. subst x. eauto.
  - intros (e & c & He & Hr & Hin). rewrite He, Hr. simpl.
    apply existsb_exists. exists c. split; [exact Hin|apply String.eqb_refl].
Qed.

Lemma member_check_points (L : ledger) (qid : string) (xs : list string) (p : Z) :
  p <> 0%Z ->
  (member_check L qid xs p = p
   <-> exists e c, dict_get qid L = Some e /\ response e = JStr c /\ In c xs).
Proof.
  intro Hp. rewrite member_check_spec, <- answer_among_spec.
  destruct (answer_among L qid xs); split; congruence.
Qed.

(** The style check on a one-tag template whose tag is the answer itself:
    whenever [str.lower] leaves the answer unchanged, the tag is matched. *)
Lemma style_match_lower_fixed_point (a : string) :
  str_lower a = a ->
  compute_match_factors (user_responses (submit_all fresh_system [("q2.1.1", JStr a)]))
    (mkTemplate "" "" [a] [] [] [] [] [] None None)
  = Some (mkFactors 25 0 0 0).
Proof.
  intro Ha. unfold compute_match_factors, style_check. cbn.
  rewrite Ha, String.eqb_refl. reflexivity.
Qed.

(** C10 (amended): the style check lowercases the recorded [q2.1.1] string
    answer with [str.lower] and compares it verbatim with the template's
    [style_tags], which are not lowercased: it scores 25 exactly when the
    lowercased answer is a tag, so a tag that is the lowercase form of no
    string is never matched; since [str.lower] never yields an ASCII
    capital A-Z, a tag containing one is never matched. The color, goal and
    version checks score exactly when the recorded answer is a string that
    is literally a member of the field, with no lowercasing. *)
Theorem match_score_case_handling (L : ledger) (t : template) :
  (forall e a, dict_get "q2.1.1" L = Some e -> response e = JStr a ->
     exists mf, compute_match_factors L t = Some mf
                /\ (style_match mf = 25%Z <-> In (str_lower a) (style_tags t)))
  /\ ((forall x, has_ascii_upper (str_lower x) = false) ->
      forall a tag, has_ascii_upper tag = true -> str_lower a <> tag)
  /\ (forall mf, compute_match_factors L t = Some mf ->
       (color_match mf = 20%Z
        <-> exists e c, dict_get "q1.3.2" L = Some e /\ response e = JStr c
                        /\ In c (color_schemes t))
       /\ (functionality_match mf = 30%Z
        <-> exists e c, dict_get "q1.1.1" L = Some e /\ response e = JStr c
                        /\ In c (suitable_for t))
       /\ (technical_compatibility mf = 25%Z
        <-> exists e c, dict_get "q2.2.1" L = Some e /\ response e = JStr c
                        /\ In c (compatible_versions t))).
Proof.
  split; [|split].
  - intros e a He Hr. unfold compute_match_factors, style_check.
    rewrite He, Hr. eexists. split; [reflexivity|]. cbn [style_match].
    destruct (existsb (String.eqb (str_lower a)) (style_tags t)) eqn:Hex.
    + apply existsb_exists in Hex as [x [Hx Heq]]. apply String.eqb_eq in Heq.
      subst x. split; auto.
    + split; [discriminate|]. intro Hin. exfalso.
      assert (existsb (String.eqb (str_lower a)) (style_tags t) = true) as Hc.
      { apply existsb_exists. exists (str_lower a). split; [exact Hin|apply String.eqb_refl]. }
      congruence.
  - intros Hlow a tag Hup Heq. rewrite <- Heq, Hlow in Hup. discriminate.
  - intros mf Hmf. unfold compute_match_factors in Hmf.
    destruct (style_check L t); [|discriminate]. injection Hmf as <-.
    cbn [color_match functionality_match technical_compatibility].
    split; [|split]; apply member_check_points; discriminate.
Qed.

(** ** Ranking *)

Open Scope list_scope.

Definition score_desc (a b : recommendation) : Prop := (match_score b <= match_score a)%Z.

Definition score_is (v : Z) (r : recommendation) : bool := Z.eqb (match_score r) v.

Lemma score_desc_trans : Transitive score_desc.
Proof. unfold Transitive, score_desc. intros; lia. Qed.

Lemma insert_desc_perm (x : recommendation) (l : list recommendation) :
  Permutation (insert_desc x l) (x :: l).
Proof.
  induction l as [|y t IH]; simpl; [reflexivity|].
  destruct (Z.ltb (match_score y) (match_score x)); [reflexivity|].
  rewrite IH. apply perm_swap.
Qed.

Lemma insert_desc_hdrel (y x : recommendation) (l : list recommendation) :
  HdRel score_desc y l -> score_desc y x -> HdRel score_desc y (insert_desc x l).
Proof.
  intros Hh Hyx. destruct l as [|z t]; simpl; [constructor; exact Hyx|].
  destruct (Z.ltb (match_score z) (match_score x)); constructor;
    [exact Hyx | inversion Hh; assumption].
Qed.

Lemma insert_desc_sorted (x : recommendation) (l : list recommendation) :
  Sorted score_desc l -> Sorted score_desc (insert_desc x l).
Proof.
  induction l as [|y t IH]; intro Hs; simpl; [constructor; constructor|].
  destruct (Z.ltb (match_score y) (match_score x)) eqn:E.
  - apply Z.ltb_lt in E. constructor; [exact Hs|constructor; unfold score_desc; lia].
  - apply Z.ltb_ge in E. apply Sorted_inv in Hs as [Ht Hh].
    constructor; [exact (IH Ht)|]. apply insert_desc_hdrel; [exact Hh|exact E].
Qed.

Lemma filter_all_below (v : Z) (l : list recommendation) :
  (forall z, In z l -> (match_score z < v)%Z) -> filter (score_is v) l = [].
Proof.
  induction l as [|z l IH]; intro H; simpl; [reflexivity|].
  unfold score_is at 1. destruct (Z.eqb (match_score z) v) eqn:E.
  - apply Z.eqb_eq in E. specialize (H z (or_introl eq_refl)). lia.
  - apply IH. intros w Hw. apply H. right. exact Hw.
Qed.

Lemma insert_desc_filter (x : recommendation) (l : list recommendation) (v : Z) :
  Sorted score_desc l ->
  filter (score_is v) (insert_desc x l)
  = filter (score_is v) l ++ (if score_is v x then [x] else []).
Proof.
  induction l as [|y t IH]; intro Hs; simpl.
  - destruct (score_is v x); reflexivity.
  - destruct (Z.ltb (match_score y) (match_score x)) eqn:E.
    + apply Z.ltb_lt in E. simpl.
      destruct (score_is v x) eqn:Ex.
      * unfold score_is in Ex. apply Z.eqb_eq in Ex.
        assert (Hbelow : forall z, In z (y :: t) -> (match_score z < v)%Z).
        { apply Sorted_StronglySorted in Hs; [|exact score_desc_trans].
          apply StronglySorted_inv in Hs as [_ Hall].
          intros z [<-|Hz]; [lia|].
          rewrite Forall_forall in Hall. specialize (Hall z Hz).
          unfold score_desc in Hall. lia. }
        pose proof (filter_all_below v (y :: t) Hbelow) as Hnil.
        simpl in Hnil. rewrite Hnil. reflexivity.
      * rewrite app_nil_r. reflexivity.
    + simpl. apply Sorted_inv in Hs as [Ht _].
      destruct (score_is v y); rewrite (IH Ht); reflexivity.
Qed.

Lemma sort_fold_perm (l acc : list recommendation) :
  Permutation (fold_left (fun acc x => insert_desc x acc) l acc) (l ++ acc).
Proof.
  revert acc. induction l as [|x l IH]; intro acc; simpl; [reflexivity|].
  rewrite IH, insert_desc_perm. symmetry. apply Permutation_middle.
Qed.

Lemma sort_fold_sorted (l acc : list recommendation) :
  Sorted score_desc acc ->
  Sorted score_desc (fold_left (fun acc x => insert_desc x acc) l acc).
Proof.
  revert acc. induction l as [|x l IH]; intros acc H; simpl; [exact H|].
  apply IH, insert_desc_sorted, H.
Qed.

Lemma sort_fold_filter (l acc : list recommendation) (v : Z) :
  Sorted score_desc acc ->
  filter (score_is v) (fold_left (fun acc x => insert_desc x acc) l acc)
  = filter (score_is v) acc ++ filter (score_is v) l.
Proof.
  revert acc. induction l as [|x l IH]; intros acc H; simpl.
  - rewrite app_nil_r. reflexivity.
  - rewrite (IH _ (insert_desc_sorted x acc H)), (insert_desc_filter x acc v H).
    rewrite <- app_assoc. destruct (score_is v x); reflexivity.
Qed.

Lemma sort_desc_spec (l : list recommendation) :
  Permutation (sort_desc l) l
  /\ Sorted score_desc (sort_desc l)
  /\ (forall v, filter (score_is v) (sort_desc l) = filter (score_is v) l).
Proof.
  unfold sort_desc. split; [|split].
  - rewrite sort_fold_perm, app_nil_r. reflexivity.
  - apply sort_fold_sorted. constructor.
  - intro v. rewrite sort_fold_filter by constructor. reflexivity.
Qed.

Lemma sorted_firstn (n : nat) (l : list recommendation) :
  Sorted score_desc l -> Sorted score_desc (firstn n l).
Proof.
  revert l. induction n as [|n IH]; intros l H; simpl; [constructor|].
  destruct l as [|a l]; [constructor|].
  apply Sorted_inv in H as [Hl Hh]. constructor; [exact (IH l Hl)|].
  destruct l as [|b l]; destruct n; simpl; constructor.
  inversion Hh; assumption.
Qed.

Definition score_of (s : system) (t : template) : Z :=
  match calculate_template_match_score s t with Some v => v | None => 0%Z end.

(** The recommendation built for each catalog entry, in catalog order. *)
Definition catalog_recs (s : system) (db : list template) : list recommendation :=
  map (fun t => make_recommendation t (score_of s t)) db.

Lemma build_recommendations_ok (s : system) (db : list template) :
  style_ok (user_responses s) -> build_recommendations s db = Some (catalog_recs s db).
Proof.
  intro Hok. induction db as [|t db IH]; simpl; [reflexivity|].
  unfold score_of.
  destruct (calculate_template_match_score s t) as [v|] eqn:Hc.
  - rewrite IH. reflexivity.
  - exfalso. unfold calculate_template_match_score, compute_match_factors in Hc.
    destruct (style_check (user_responses s) t) eqn:Hs; [discriminate|].
    apply (proj1 (style_check_none _ t) Hs). exact Hok.
Qed.

Lemma build_recommendations_raises (s : system) (t : template) (db : list template) :
  ~ style_ok (user_responses s) -> build_recommendations s (t :: db) = None.
Proof.
  intro Hbad. simpl.
  unfold calculate_template_match_score, compute_match_factors.
  rewrite (proj2 (style_check_none _ t) Hbad). reflexivity.
Qed.

Lemma catalog_recs_bounds (s : system) (db : list template) :
  Forall (fun r => (0 <= match_score r <= 100)%Z) (catalog_recs s db).
Proof.
  unfold catalog_recs. apply Forall_map. apply Forall_forall. intros t _.
  simpl. unfold score_of.
  destruct (calculate_template_match_score s t) eqn:Hc; [|lia].
  exact (calculate_template_match_score_bounds s t z Hc).
Qed.

(** C4 (amended): when the recorded [q2.1.1] answer, if any, is a string,
    [generate_recommendations] stores in the state the full ranked list, a
    permutation of the catalog's recommendations sorted by descending match
    score in which equal scores keep catalog order, and returns its first
    10 elements, each scored in [0, 100]; the ledger and configuration are
    unchanged. Any other recorded [q2.1.1] answer makes it raise on a
    non-empty catalog. *)
Theorem generate_recommendations_spec (s : system) (db : list template) :
  (~ style_ok (user_responses s) -> db <> [] -> generate_recommendations s db = None)
  /\ (style_ok (user_responses s) ->
      exists s' top,
        generate_recommendations s db = Some (s', top)
        /\ Permutation (recommendations s') (catalog_recs s db)
        /\ Sorted score_desc (recommendations s')
        /\ (forall v, filter (score_is v) (recommendations s')
                      = filter (score_is v) (catalog_recs s db))
        /\ top = firstn 10 (recommendations s')
        /\ Sorted score_desc top
        /\ (length top <= 10)%nat
        /\ Forall (fun r => (0 <= match_score r <= 100)%Z) top
        /\ sys_config s' = sys_config s
        /\ user_responses s' = user_responses s).
Proof.
  split.
  - intros Hbad Hne. destruct db as [|t db]; [contradiction|].
    unfold generate_recommendations. rewrite (build_recommendations_raises s t db Hbad).
    reflexivity.
  - intro Hok. unfold generate_recommendations.
    rewrite (build_recommendations_ok s db Hok).
    destruct (sort_desc_spec (catalog_recs s db)) as (Hperm & Hsort & Hstable).
    eexists _, _. split; [reflexivity|]. cbn [recommendations sys_config user_responses].
    split; [exact Hperm|]. split; [exact Hsort|]. split; [exact Hstable|].
    split; [reflexivity|]. split; [apply sorted_firstn; exact Hsort|].
    split; [rewrite length_firstn; lia|].
    split; [|split; reflexivity].
    apply Forall_forall. intros r Hr.
    assert (Hr' : In r (firstn 10 (sort_desc (catalog_recs s db))
                         ++ skipn 10 (sort_desc (catalog_recs s db))))
      by (apply in_or_app; left; exact Hr).
    rewrite firstn_skipn in Hr'. clear Hr. rename Hr' into Hr.
    apply (Permutation_in _ Hperm) in Hr.
    pose proof (catalog_recs_bounds s db) as Hb. rewrite Forall_forall in Hb.
    exact (Hb r Hr).
Qed.

(** A ledger whose style answer is a list, as a multiple-choice answer
    submitted through [POST /api/responses] would be. *)
Definition list_style_system : system :=
  submit_all fresh_system [("q2.1.1", JList [JStr "minimal"])].

(** ** Implementation plan *)

(** The three-entry table as the claim words it. *)
Definition claimed_roadmap_key (v : json) : string :=
  match v with
  | JStr t =>
      if String.eqb t "1일" then "tight_timeline_1day"
      else if String.eqb t "1주" then "standard_timeline_1week"
      else if String.eqb t "1개월" then "extended_timeline_1month"
      else "standard_timeline_1week"
  | _ => "standard_timeline_1week"
  end.

Definition experience_of (L : ledger) : json :=
  match dict_get "q5.1.2" L with Some e => response e | None => JStr "중급자" end.

(** C3 (amended): a recorded [q5.1.1] answer that can be a dict key selects
    the roadmap named by the three-entry table ("1일" tight, "1주" standard,
    "1개월" extended, anything else standard) from the configuration's
    roadmap table, and the plan carries its steps, a one-element resource
    list and a customization label; a list or dict answer raises. With no
    [q5.1.1] response the plan has timeline "1주" but no steps, no
    resources and no customization label. *)
Theorem generate_implementation_plan_spec (s : system) :
  (dict_get "q5.1.1" (user_responses s) = None ->
     generate_implementation_plan s
     = Some (mkPlan (JStr "1주") (experience_of (user_responses s)) [] [] 0%Z None))
  /\ (forall e table,
        dict_get "q5.1.1" (user_responses s) = Some e ->
        hashable (response e) = true ->
        roadmaps_of (sys_config s) = Some table ->
        let rm := match dict_get (claimed_roadmap_key (response e)) table with
                  | Some r => r
                  | None => empty_roadmap
                  end in
        generate_implementation_plan s
        = Some (mkPlan (response e) (experience_of (user_responses s))
                  (match steps rm with Some l => l | None => [] end)
                  [match resources rm with Some r => r | None => JStr "" end]
                  0%Z
                  (Some (match customization_level rm with
                         | Some c => c
                         | None => JStr "moderate"
                         end))))
  /\ (forall e, dict_get "q5.1.1" (user_responses s) = Some e ->
        hashable (response e) = false -> generate_implementation_plan s = None).
Proof.
  unfold generate_implementation_plan, experience_of.
  split; [|split].
  - intro H. rewrite H. reflexivity.
  - intros e table He Hh Ht. rewrite He.
    assert (Hk : timeline_key (response e) = Some (claimed_roadmap_key (response e))).
    { unfold timeline_key, claimed_roadmap_key. rewrite Hh.
      destruct (response e) as [| | |t| |]; try reflexivity.
      unfold timeline_table. cbn [dict_get].
      destruct (String.eqb t "1일"); [reflexivity|].
      destruct (String.eqb t "1주"); [reflexivity|].
      destruct (String.eqb t "1개월"); reflexivity. }
    rewrite Hk, Ht. reflexivity.
  - intros e He Hh. rewrite He. unfold timeline_key. rewrite Hh. reflexivity.
Qed.

Lemma generate_implementation_plan_spec_witness :
  option_map plan_phases (generate_implementation_plan answered_system)
  = Some [JStr "pick template"; JStr "fill content"].
Proof.
  destruct (generate_implementation_plan_spec answered_system) as (_ & Hrec & _).
  rewrite (Hrec (mkEntry "q5.1.1" (JStr "1일") JNull "2026-01-01T00:00:00")
             sample_roadmaps); [reflexivity | vm_compute; reflexivity
                                | reflexivity | reflexivity].
Defined.

(** C3 (counterexample): with no [q5.1.1] response the plan has no steps and
    no customization label, although the standard one-week roadmap of the
    configuration has three steps and a label. *)
Lemma generate_implementation_plan_no_timeline :
  dict_get "q5.1.1" (user_responses fresh_system) = None
  /\ option_map plan_phases (generate_implementation_plan fresh_system) = Some []
  /\ option_map plan_customization_level (generate_implementation_plan fresh_system)
     = Some None
  /\ option_map steps (dict_get "standard_timeline_1week" sample_roadmaps)
     = Some (Some [JStr "plan"; JStr "customize"; JStr "review"]).
Proof. vm_compute. repeat split. Qed.

(** ** Ledger updates *)

Lemma dict_get_set_same {V} (k : string) (v : V) (d : list (string * V)) :
  dict_get k (dict_set k v d) = Some v.
Proof.
  induction d as [|[k' v'] t IH]; simpl.
  - rewrite String.eqb_refl. reflexivity.
  - destruct (String.eqb k k') eqn:E; simpl.
    + rewrite String.eqb_refl. reflexivity.
    + rewrite E. exact IH.
Qed.

Lemma dict_set_length {V} (k : string) (v : V) (d : list (string * V)) :
  dict_get k d <> None -> length (dict_set k v d) = length d.
Proof.
  induction d as [|[k' v'] t IH]; simpl; [congruence|].
  destruct (String.eqb k k'); simpl; [reflexivity|].
  intro H. rewrite (IH H). reflexivity.
Qed.

Lemma dict_set_keys {V} (k x : string) (v : V) (d : list (string * V)) :
  In x (map fst (dict_set k v d)) -> x = k \/ In x (map fst d).
Proof.
  induction d as [|[k' v'] t IH]; simpl.
  - intros [<-|[]]. left. reflexivity.
  - destruct (String.eqb k k') eqn:E; simpl.
    + apply String.eqb_eq in E. subst k'. intros [<-|H]; auto.
    + intros [<-|H]; [auto|]. destruct (IH H); auto.
Qed.

Lemma dict_set_nodup {V} (k : string) (v : V) (d : list (string * V)) :
  NoDup (map fst d) -> NoDup (map fst (dict_set k v d)).
Proof.
  induction d as [|[k' v'] t IH]; simpl; intro Hnd.
  - constructor; [intros []|constructor].
  - inversion Hnd as [|? ? Hnin Hnd']; subst.
    destruct (String.eqb k k') eqn:E; simpl.
    + apply String.eqb_eq in E. subst k'. constructor; assumption.
    + constructor; [|exact (IH Hnd')].
      intro Hin. apply dict_set_keys in Hin as [Heq|Hin].
      * subst k'. rewrite String.eqb_refl in E. discriminate.
      * exact (Hnin Hin).
Qed.

Lemma dict_set_only {V} (k : string) (v : V) (d : list (string * V)) :
  NoDup (map fst d) ->
  filter (fun kv => String.eqb (fst kv) k) (dict_set k v d) = [(k, v)].
Proof.
  induction d as [|[k' v'] t IH]; simpl; intro Hnd.
  - rewrite String.eqb_refl. reflexivity.
  - inversion Hnd as [|? ? Hnin Hnd']; subst.
    destruct (String.eqb k k') eqn:E; simpl.
    + rewrite String.eqb_refl. f_equal.
      apply String.eqb_eq in E. subst k'.
      clear IH Hnd Hnd'. induction t as [|[k2 v2] t IHt]; simpl; [reflexivity|].
      simpl in Hnin. destruct (String.eqb k2 k) eqn:E2.
      * apply String.eqb_eq in E2. subst. exfalso. apply Hnin. left. reflexivity.
      * apply IHt. intro H. apply Hnin. right. exact H.
    + rewrite String.eqb_sym, E. exact (IH Hnd').
Qed.

(** C6: [submit_response] always returns [true]; after submitting the same
    identifier twice the ledger holds exactly one entry for it, carrying
    the later value, details and timestamp, and the second submission does
    not change the number of entries. *)
Theorem submit_response_overwrites (s : system) (qid : string)
    (v1 d1 : json) (t1 : string) (v2 d2 : json) (t2 : string)
    (Hnd : NoDup (map fst (user_responses s))) :
  let s1 := fst (submit_response s qid v1 d1 t1) in
  let s2 := fst (submit_response s1 qid v2 d2 t2) in
  snd (submit_response s qid v1 d1 t1) = true
  /\ snd (submit_response s1 qid v2 d2 t2) = true
  /\ filter (fun kv => String.eqb (fst kv) qid) (user_responses s2)
     = [(qid, mkEntry qid v2 d2 t2)]
  /\ length (user_responses s2) = length (user_responses s1)
  /\ NoDup (map fst (user_responses s2)).
Proof.
  cbn zeta. cbn [submit_response fst snd user_responses].
  assert (Hnd1 : NoDup (map fst (dict_set qid (mkEntry qid v1 d1 t1) (user_responses s))))
    by (apply dict_set_nodup; exact Hnd).
  split; [reflexivity|]. split; [reflexivity|].
  split; [apply dict_set_only; exact Hnd1|].
  split; [|apply dict_set_nodup; exact Hnd1].
  apply dict_set_length. rewrite dict_get_set_same. discriminate.
Qed.

Lemma submit_response_overwrites_witness :
  NoDup (map fst (user_responses answered_system))
  /\ filter (fun kv => String.eqb (fst kv) "q5.1.1")
       (user_responses (fst (submit_response
          (fst (submit_response answered_system "q5.1.1" (JStr "1주") JNull "t1"))
          "q5.1.1" (JStr "1개월") JNull "t2")))
     = [("q5.1.1", mkEntry "q5.1.1" (JStr "1개월") JNull "t2")].
Proof.
  assert (Hnd : NoDup (map fst (user_responses answered_system))).
  { vm_compute. repeat constructor; simpl; intuition discriminate. }
  split; [exact Hnd|].
  exact (proj1 (proj2 (proj2 (submit_response_overwrites answered_system "q5.1.1"
           (JStr "1주") JNull "t1" (JStr "1개월") JNull "t2" Hnd)))).
Defined.

(** ** Progress *)

Definition required_questions_of (s : system) : list question :=
  filter required (get_all_questions (sys_config s)).

Definition answered_required_of (s : system) : nat :=
  length (filter (fun q => dict_mem (question_id q) (user_responses s))
            (required_questions_of s)).

Lemma filter_all_true {A} (f : A -> bool) (l : list A) :
  (forall x, In x l -> f x = true) -> filter f l = l.
Proof.
  induction l as [|x l IH]; intro H; simpl; [reflexivity|].
  rewrite (H x (or_introl eq_refl)), IH; [reflexivity|].
  intros y Hy. apply H. right. exact Hy.
Qed.

(** C7: the progress is the number of required questions whose identifier
    is in the ledger over the number of required questions, times 100; it
    is exactly 100 when there are no required questions, and 100 when every
    required question is answered. *)
Theorem get_progress_percentage_spec (s : system) :
  (required_questions_of s = [] -> get_progress_percentage s = 100)
  /\ (required_questions_of s <> [] ->
      get_progress_percentage s
      == inject_Z (Z.of_nat (answered_required_of s))
         / inject_Z (Z.of_nat (length (required_questions_of s))) * 100)
  /\ ((forall q, In q (required_questions_of s) ->
                 dict_mem (question_id q) (user_responses s) = true) ->
      get_progress_percentage s == 100).
Proof.
  unfold get_progress_percentage, answered_required_of, required_questions_of.
  split; [|split].
  - intro H. rewrite H. reflexivity.
  - intro H. destruct (filter required (get_all_questions (sys_config s))) as [|q l];
      [contradiction|]. reflexivity.
  - intro H. rewrite (filter_all_true _ _ H).
    destruct (filter required (get_all_questions (sys_config s))) as [|q l];
      [reflexivity|].
    cbn [length Nat.eqb].
    assert (Hn : ~ inject_Z (Z.of_nat (S (length l))) == 0).
    { change 0 with (inject_Z 0). rewrite inject_Z_injective. lia. }
    unfold Qdiv. rewrite Qmult_inv_r by exact Hn. ring.
Qed.

Lemma get_progress_percentage_spec_witness :
  (forall q, In q (required_questions_of answered_system) ->
             dict_mem (question_id q) (user_responses answered_system) = true)
  /\ get_progress_percentage answered_system == 100.
Proof.
  assert (H : forall q, In q (required_questions_of answered_system) ->
             dict_mem (question_id q) (user_responses answered_system) = true).
  { apply (proj1 (forallb_forall _ _)). vm_compute. reflexivity. }
  split; [exact H|].
  exact (proj2 (proj2 (get_progress_percentage_spec answered_system)) H).
Defined.

(** ** The submission route *)

Definition is_obj (v : json) : bool := match v with JObj _ => true | _ => false end.

(** C9 (counterexample): a request whose JSON body is [null] has no
    [question_id], yet the handler answers 500 ([None.get] raises
    [AttributeError]), not 400. *)
Lemma submit_route_null_body :
  py_get "question_id" [] = JNull
  /\ submit_response_route fresh_system JNull "t" = ServerError
  /\ status_code (submit_response_route fresh_system JNull "t") = 500%Z.
Proof. repeat split. Qed.

(** C9 (amended): for a JSON-object body the route answers 400 exactly when
    [question_id] is missing or falsy or [response] is missing or [null];
    a [false] or [0] response with a non-empty string [question_id] is
    recorded and the route reports success; a body that is not a JSON
    object yields 500. *)
Theorem submit_route_validation (s : system) (now : string) :
  (forall o, status_code (submit_response_route s (JObj o) now) = 400%Z
             <-> truthy (py_get "question_id" o) = false
                 \/ py_get "response" o = JNull)
  /\ (forall data, is_obj data = false -> submit_response_route s data now = ServerError)
  /\ (forall o k, py_get "question_id" o = JStr k -> k <> "" ->
        (py_get "response" o = JBool false \/ py_get "response" o = JNum 0) ->
        submit_response_route s (JObj o) now
        = Recorded (fst (submit_response s k (py_get "response" o)
                           (py_get "additional_details" o) now)) true).
Proof.
  split; [|split].
  - intro o. unfold submit_response_route. cbv zeta.
    destruct (py_get "question_id" o) as [|b|n|k|l|fs] eqn:Hq;
      destruct (py_get "response" o) eqn:Hr; cbn [truthy negb orb];
      try destruct b; try destruct (Z.eqb n 0); try destruct (String.eqb k "");
      try destruct (Nat.eqb (length l) 0); try destruct (Nat.eqb (length fs) 0);
      cbn; split; intro H; try reflexivity; try discriminate H;
      try (destruct H as [H|H]; discriminate H); auto.
  - intros data Hd. destruct data; try reflexivity. discriminate Hd.
  - intros o k Hq Hk Hr. unfold submit_response_route. cbv zeta.
    rewrite Hq. cbn [truthy negb].
    destruct (String.eqb k "") eqn:E; [apply String.eqb_eq in E; contradiction|].
    destruct Hr as [Hr|Hr]; rewrite Hr; reflexivity.
Qed.

Lemma submit_route_validation_witness :
  submit_response_route fresh_system
    (JObj [("question_id", JStr "q4.2.1"); ("response", JBool false)]) "t"
  = Recorded (fst (submit_response fresh_system "q4.2.1" (JBool false) JNull "t")) true.
Proof.
  apply (proj2 (proj2 (submit_route_validation fresh_system "t")));
    [reflexivity | discriminate | left; reflexivity].
Defined.

(** ** Further properties of the code *)

(** Questions by phase *)

(** A phase identifier below 1 or above the number of phases gives the
    empty list. *)
Theorem get_questions_by_phase_out_of_range (cfg : config) (phase_id : Z)
    (Hout : (phase_id <= 0 \/ Z.of_nat (length (workflow_phases cfg)) < phase_id)%Z) :
  get_questions_by_phase cfg phase_id = [].
Proof.
  unfold get_questions_by_phase.
  destruct (Z.ltb 0 phase_id) eqn:H1; [|reflexivity].
  destruct (Z.leb phase_id _) eqn:H2; [|reflexivity].
  apply Z.ltb_lt in H1. apply Z.leb_le in H2. lia.
Qed.

Lemma get_questions_by_phase_out_of_range_witness :
  get_questions_by_phase sample_config 6 = [].
Proof.
  apply get_questions_by_phase_out_of_range. right. vm_compute. reflexivity.
Defined.

Lemma flat_map_nth_seq {A B} (g : A -> list B) (l : list A) :
  flat_map (fun i => match nth_error l i with Some x => g x | None => [] end)
    (seq 0 (length l))
  = flat_map g l.
Proof.
  induction l as [|a l IH]; [reflexivity|].
  cbn [length]. rewrite <- cons_seq, <- seq_shift.
  cbn [flat_map nth_error]. f_equal.
  rewrite <- IH. clear IH.
  induction (seq 0 (length l)) as [|i is IHi]; [reflexivity|].
  cbn [map flat_map nth_error]. rewrite IHi. reflexivity.
Qed.

(** Concatenating the questions of phases 1 to n, in order, gives exactly
    [get_all_questions]. *)
Theorem get_questions_by_phase_cover (cfg : config) :
  flat_map (fun i => get_questions_by_phase cfg (Z.of_nat i + 1))
    (seq 0 (length (workflow_phases cfg)))
  = get_all_questions cfg.
Proof.
  unfold get_all_questions.
  rewrite <- (flat_map_nth_seq (fun ph => flat_map strategic_questions (sections ph))).
  rewrite !flat_map_concat_map. f_equal.
  apply map_ext_in. intros i Hi. apply in_seq in Hi.
  unfold get_questions_by_phase.
  replace (Z.ltb 0 (Z.of_nat i + 1)) with true by (symmetry; apply Z.ltb_lt; lia).
  replace (Z.leb (Z.of_nat i + 1) (Z.of_nat (length (workflow_phases cfg)))) with true
    by (symmetry; apply Z.leb_le; lia).
  replace (Z.to_nat (Z.of_nat i + 1 - 1)) with i by lia.
  reflexivity.
Qed.

(** Question lookup *)

Lemma find_app {A} (f : A -> bool) (l1 l2 : list A) :
  find f (l1 ++ l2) = match find f l1 with Some x => Some x | None => find f l2 end.
Proof.
  induction l1 as [|x l1 IH]; simpl; [reflexivity|].
  destruct (f x); [reflexivity|exact IH].
Qed.

(** [_find_question] returns the first question of [get_all_questions]
    with the identifier, or [None]. *)
Theorem find_question_first_match (cfg : config) (qid : string) :
  find_question cfg qid
  = find (fun q => String.eqb (question_id q) qid) (get_all_questions cfg).
Proof.
  unfold find_question, get_all_questions.
  induction (workflow_phases cfg) as [|ph ps IHp]; [reflexivity|].
  cbn [find_in_phases flat_map]. rewrite find_app, <- IHp.
  replace (find_in_sections qid (sections ph))
    with (find (fun q => String.eqb (question_id q) qid)
            (flat_map strategic_questions (sections ph))); [reflexivity|].
  induction (sections ph) as [|sec ss IHs]; [reflexivity|].
  cbn [find_in_sections flat_map]. rewrite find_app, <- IHs.
  replace (find_in_questions qid (strategic_questions sec))
    with (find (fun q => String.eqb (question_id q) qid) (strategic_questions sec));
    [reflexivity|].
  induction (strategic_questions sec) as [|q qs IHq]; [reflexivity|].
  cbn [find find_in_questions]. rewrite IHq. reflexivity.
Qed.

(** Scores with no responses *)

(** With an empty ledger every category score is 0 (for non-negative
    maxima) and every template's match score is 0. *)
Theorem scores_of_empty_ledger (s : system)
    (Hempty : user_responses s = [])
    (Hmax : forall c, 0 <= weight_distribution (sys_config s) c) :
  (forall c, calculate_profile_score s c == 0)
  /\ (forall t, calculate_template_match_score s t = Some 0%Z).
Proof.
  split.
  - intro c. unfold calculate_profile_score. rewrite Hempty. cbn [fold_left].
    unfold py_min_Q.
    destruct (Qlt_le_dec (weight_distribution (sys_config s) c) (0 * 2)) as [H|H].
    + exfalso. apply (Qlt_not_le _ _ H).
      apply (Qle_trans _ 0); [apply Qle_refl|apply Hmax].
    + reflexivity.
  - intro t. unfold calculate_template_match_score, compute_match_factors,
      style_check, member_check.
    rewrite Hempty. reflexivity.
Qed.

(** Progress *)

Lemma dict_mem_set {V} (k k' : string) (v : V) (d : list (string * V)) :
  dict_mem k' d = true -> dict_mem k' (dict_set k v d) = true.
Proof.
  unfold dict_mem. induction d as [|[k2 v2] t IH]; simpl; [discriminate|].
  destruct (String.eqb k k2) eqn:E; simpl.
  - apply String.eqb_eq in E. subst k2. destruct (String.eqb k' k); auto.
  - destruct (String.eqb k' k2); auto.
Qed.

Lemma filter_length_mono {A} (f g : A -> bool) (l : list A) :
  (forall x, f x = true -> g x = true) ->
  (length (filter f l) <= length (filter g l))%nat.
Proof.
  intro H. induction l as [|x l IH]; simpl; [lia|].
  destruct (f x) eqn:Ef.
  - rewrite (H x Ef). simpl. lia.
  - destruct (g x); simpl; lia.
Qed.

Lemma progress_formula (s : system) :
  get_progress_percentage s
  = if Nat.eqb (length (required_questions_of s)) 0 then 100
    else inject_Z (Z.of_nat (answered_required_of s))
         / inject_Z (Z.of_nat (length (required_questions_of s))) * 100.
Proof. reflexivity. Qed.

Lemma answered_le_required (s : system) :
  (answered_required_of s <= length (required_questions_of s))%nat.
Proof. unfold answered_required_of. apply filter_length_le. Qed.

(** The progress percentage is always between 0 and 100. *)
Theorem get_progress_percentage_bounds (s : system) :
  0 <= get_progress_percentage s <= 100.
Proof.
  rewrite progress_formula.
  pose proof (answered_le_required s) as Hle.
  destruct (Nat.eqb (length (required_questions_of s)) 0) eqn:E.
  - split; discriminate.
  - apply Nat.eqb_neq in E.
    set (a := answered_required_of s) in *.
    set (n := length (required_questions_of s)) in *.
    assert (Hn : 0 < inject_Z (Z.of_nat n)).
    { change 0 with (inject_Z 0). rewrite <- Zlt_Qlt. lia. }
    split.
    + apply (Qle_trans _ (0 * 100)); [discriminate|].
      apply Qmult_le_compat_r; [|discriminate].
      apply Qle_shift_div_l; [exact Hn|]. rewrite Qmult_0_l.
      change 0 with (inject_Z 0). rewrite <- Zle_Qle. lia.
    + apply (Qle_trans _ (1 * 100)); [|discriminate].
      apply Qmult_le_compat_r; [|discriminate].
      apply Qle_shift_div_r; [exact Hn|]. rewrite Qmult_1_l.
      rewrite <- Zle_Qle. lia.
Qed.

(** Submitting a response never lowers the progress percentage. *)
Theorem submit_response_progress_mono (s : system) (qid : string) (v d : json) (now : string) :
  get_progress_percentage s <= get_progress_percentage (fst (submit_response s qid v d now)).
Proof.
  rewrite !progress_formula.
  assert (Hreq : required_questions_of (fst (submit_response s qid v d now))
                 = required_questions_of s) by reflexivity.
  assert (Hans : (answered_required_of s
                  <= answered_required_of (fst (submit_response s qid v d now)))%nat).
  { unfold answered_required_of. rewrite Hreq. apply filter_length_mono.
    intros q Hq. apply dict_mem_set. exact Hq. }
  rewrite Hreq.
  destruct (Nat.eqb (length (required_questions_of s)) 0) eqn:E; [apply Qle_refl|].
  apply Nat.eqb_neq in E.
  apply Qmult_le_compat_r; [|discriminate].
  unfold Qdiv. apply Qmult_le_compat_r.
  - rewrite <- Zle_Qle. lia.
  - apply Qinv_le_0_compat. change 0 with (inject_Z 0). rewrite <- Zle_Qle. lia.
Qed.

(** Ledger updates through [submit_response] *)

Lemma dict_get_set_other {V} (k k' : string) (v : V) (d : list (string * V)) :
  k' <> k -> dict_get k' (dict_set k v d) = dict_get k' d.
Proof.
  intro Hne. induction d as [|[k2 v2] t IH]; simpl.
  - apply String.eqb_neq in Hne. rewrite Hne. reflexivity.
  - destruct (String.eqb k k2) eqn:E; simpl.
    + apply String.eqb_eq in E. subst k2.
      apply String.eqb_neq in Hne. rewrite Hne. reflexivity.
    + rewrite IH. reflexivity.
Qed.

Lemma dict_set_new {V} (k : string) (v : V) (d : list (string * V)) :
  dict_get k d = None -> dict_set k v d = d ++ [(k, v)].
Proof.
  induction d as [|[k2 v2] t IH]; simpl; [reflexivity|].
  destruct (String.eqb k k2); [discriminate|].
  intro H. rewrite (IH H). reflexivity.
Qed.

Lemma dict_set_keys_order {V} (k : string) (v : V) (d : list (string * V)) :
  map fst (dict_set k v d) = if dict_mem k d then map fst d else map fst d ++ [k].
Proof.
  unfold dict_mem. induction d as [|[k2 v2] t IH]; simpl; [reflexivity|].
  destruct (String.eqb k k2) eqn:E; simpl.
  - apply String.eqb_eq in E. subst. reflexivity.
  - rewrite IH. destruct (dict_get k t); reflexivity.
Qed.

(** After [submit_response], looking up the submitted identifier gives the
    new entry and every other identifier gives what it gave before; the
    configuration and the stored recommendations are untouched. *)
Theorem submit_response_lookup (s : system) (qid : string) (v d : json) (now : string)
    (k : string) :
  let s' := fst (submit_response s qid v d now) in
  dict_get k (user_responses s')
  = (if String.eqb k qid then Some (mkEntry qid v d now) else dict_get k (user_responses s))
  /\ sys_config s' = sys_config s
  /\ recommendations s' = recommendations s.
Proof.
  cbv zeta. cbn [submit_response fst user_responses sys_config recommendations].
  split; [|split; reflexivity].
  destruct (String.eqb k qid) eqn:E.
  - apply String.eqb_eq in E. subst. apply dict_get_set_same.
  - apply String.eqb_neq in E. apply dict_get_set_other. exact E.
Qed.

(** [submit_response] keeps the ledger in insertion order: a resubmitted
    identifier keeps its position, a new one is appended at the end. *)
Theorem submit_response_key_order (s : system) (qid : string) (v d : json) (now : string) :
  map fst (user_responses (fst (submit_response s qid v d now)))
  = if dict_mem qid (user_responses s) then map fst (user_responses s)
    else map fst (user_responses s) ++ [qid].
Proof. apply dict_set_keys_order. Qed.

(** Profile scores after a new response *)

Lemma py_min_Q_mono (a a' b : Q) : a <= a' -> py_min_Q a b <= py_min_Q a' b.
Proof.
  intro H. unfold py_min_Q.
  destruct (Qlt_le_dec b a) as [H1|H1], (Qlt_le_dec b a') as [H2|H2].
  - apply Qle_refl.
  - exfalso. apply (Qlt_not_le b a'); [apply (Qlt_le_trans _ a); assumption|assumption].
  - exact H1.
  - exact H.
Qed.

Lemma profile_new_response (s : system) (qid : string) (v d : json) (now : string)
    (c : category) :
  dict_get qid (user_responses s) = None ->
  calculate_profile_score (fst (submit_response s qid v d now)) c
  == py_min_Q ((Qsum (contributions (sys_config s) c (user_responses s))
                + Qsum (contribution (sys_config s) c (qid, mkEntry qid v d now))) * 2)
              (weight_distribution (sys_config s) c).
Proof.
  intro Hnew. unfold calculate_profile_score.
  cbn [submit_response fst user_responses sys_config].
  apply py_min_Q_compat. rewrite profile_fold_total, dict_set_new by exact Hnew.
  unfold contributions. rewrite flat_map_app, Qsum_app. cbn [flat_map].
  rewrite app_nil_r. ring.
Qed.

(** Answering a question that has no response yet never lowers a category
    score, when question weights are non-negative. *)
Theorem submit_new_response_profile_mono (s : system) (qid : string) (v d : json)
    (now : string)
    (Hnew : dict_get qid (user_responses s) = None)
    (Hw : forall q, In q (get_all_questions (sys_config s)) -> (0 <= weight q)%Z) :
  forall c, calculate_profile_score s c
            <= calculate_profile_score (fst (submit_response s qid v d now)) c.
Proof.
  intro c. rewrite (profile_new_response s qid v d now c Hnew).
  unfold calculate_profile_score.
  rewrite (py_min_Q_compat _ (Qsum (contributions (sys_config s) c (user_responses s)) * 2))
    by (rewrite profile_fold_total; ring).
  apply py_min_Q_mono. apply Qmult_le_compat_r; [|discriminate].
  rewrite <- (Qplus_0_r (Qsum (contributions (sys_config s) c (user_responses s)))) at 1.
  apply Qplus_le_compat; [apply Qle_refl|].
  pose proof (contributions_nonneg (sys_config s) c [(qid, mkEntry qid v d now)] Hw) as H.
  unfold contributions in H. cbn [flat_map] in H. rewrite app_nil_r in H. exact H.
Qed.

Lemma submit_new_response_profile_mono_witness :
  calculate_profile_score fresh_system content_goals
  <= calculate_profile_score
       (fst (submit_response fresh_system "q1.1.1" (JStr "교육") JNull "t")) content_goals.
Proof.
  apply submit_new_response_profile_mono; [reflexivity|].
  intros q Hq. apply Z.leb_le. revert q Hq.
  apply (proj1 (forallb_forall (fun q => Z.leb 0 (weight q)) _)). vm_compute. reflexivity.
Defined.

(** A falsy answer ([false], [0], [""], an empty list or dict) to a question
    with no response yet marks it answered but leaves every category score
    unchanged. *)
Theorem submit_falsy_response_profile (s : system) (qid : string) (v d : json)
    (now : string)
    (Hnew : dict_get qid (user_responses s) = None)
    (Hfalsy : truthy v = false) :
  dict_mem qid (user_responses (fst (submit_response s qid v d now))) = true
  /\ forall c, calculate_profile_score (fst (submit_response s qid v d now)) c
               == calculate_profile_score s c.
Proof.
  split.
  - unfold dict_mem. cbn [submit_response fst user_responses].
    rewrite dict_get_set_same. reflexivity.
  - intro c. rewrite (profile_new_response s qid v d now c Hnew).
    unfold calculate_profile_score. apply py_min_Q_compat.
    rewrite profile_fold_total.
    unfold contribution. cbn [response]. rewrite Hfalsy.
    destruct (dict_get (prefix qid) category_mapping);
      destruct (find_question (sys_config s) qid);
      rewrite ?andb_false_r; unfold Qsum; simpl; ring.
Qed.

Lemma submit_falsy_response_profile_witness :
  dict_mem "q1.1.1"
    (user_responses (fst (submit_response fresh_system "q1.1.1" (JBool false) JNull "t")))
  = true.
Proof.
  exact (proj1 (submit_falsy_response_profile fresh_system "q1.1.1" (JBool false) JNull "t"
                  eq_refl eq_refl)).
Defined.

(** The submission route *)



(** Ranking *)

Lemma build_recommendations_scores (s : system) (db : list template)
    (recs : list recommendation) :
  build_recommendations s db = Some recs ->
  recs = catalog_recs s db
  /\ forall t, In t db -> calculate_template_match_score s t = Some (score_of s t).
Proof.
  revert recs. induction db as [|t db IH]; intros recs H; simpl in H.
  - injection H as <-. split; [reflexivity|intros t []].
  - destruct (calculate_template_match_score s t) as [v|] eqn:Hc; [|discriminate].
    destruct (build_recommendations s db) as [rs|]; [|discriminate].
    injection H as <-. destruct (IH rs eq_refl) as [-> Hall].
    split.
    + unfold catalog_recs, score_of. cbn [map]. rewrite Hc. reflexivity.
    + intros t' [<-|Ht']; [unfold score_of; rewrite Hc; reflexivity|].
      exact (Hall t' Ht').
Qed.

(** [generate_recommendations] returns [min(10, len(catalog))]
    recommendations, and the first one has the highest match score of all
    catalog templates. *)
Theorem generate_recommendations_best_first (s : system) (db : list template)
    (s' : system) (top : list recommendation)
    (Hgen : generate_recommendations s db = Some (s', top)) :
  length top = Nat.min 10 (length db)
  /\ forall r t, hd_error top = Some r -> In t db ->
       exists v, calculate_template_match_score s t = Some v /\ (v <= match_score r)%Z.
Proof.
  unfold generate_recommendations in Hgen.
  destruct (build_recommendations s db) as [recs|] eqn:Hb; [|discriminate].
  assert (Htop : top = firstn 10 (sort_desc recs)) by congruence.
  subst top. clear Hgen.
  destruct (build_recommendations_scores s db recs Hb) as [-> Hall].
  destruct (sort_desc_spec (catalog_recs s db)) as (Hperm & Hsort & _).
  split.
  - rewrite length_firstn, (Permutation_length Hperm).
    unfold catalog_recs. rewrite length_map. reflexivity.
  - intros r t Hhd Ht. exists (score_of s t). split; [exact (Hall t Ht)|].
    assert (Hin : In (make_recommendation t (score_of s t)) (sort_desc (catalog_recs s db))).
    { apply (Permutation_in _ (Permutation_sym Hperm)). unfold catalog_recs.
      apply (in_map (fun t => make_recommendation t (score_of s t))). exact Ht. }
    destruct (sort_desc (catalog_recs s db)) as [|r0 rest] eqn:Hsd; [destruct Hin|].
    cbn in Hhd. injection Hhd as <-.
    apply Sorted_StronglySorted in Hsort; [|exact score_desc_trans].
    apply StronglySorted_inv in Hsort as [_ Hfa].
    destruct Hin as [Heq|Hin].
    + subst. cbn. lia.
    + rewrite Forall_forall in Hfa. specialize (Hfa _ Hin). unfold score_desc in Hfa.
      cbn in Hfa. exact Hfa.
Qed.

(** Implementation plan *)

(** The plan's steps, resources, customization label and timeline depend
    only on the [q5.1.1] entry and the configuration; the experience answer
    [q5.1.2] and all other responses are only echoed or ignored. *)
Theorem generate_implementation_plan_timeline_only (s1 s2 : system)
    (Hcfg : sys_config s1 = sys_config s2)
    (Htl : dict_get "q5.1.1" (user_responses s1) = dict_get "q5.1.1" (user_responses s2)) :
  option_map (fun p => (plan_timeline p, plan_phases p, plan_resources_needed p,
                        plan_customization_level p))
    (generate_implementation_plan s1)
  = option_map (fun p => (plan_timeline p, plan_phases p, plan_resources_needed p,
                          plan_customization_level p))
      (generate_implementation_plan s2).
Proof.
  unfold generate_implementation_plan. rewrite Htl, Hcfg.
  destruct (dict_get "q5.1.1" (user_responses s2)) as [e|]; [|reflexivity].
  destruct (timeline_key (response e)); [|reflexivity].
  destruct (roadmaps_of (sys_config s2)); reflexivity.
Qed.

Lemma generate_implementation_plan_timeline_only_witness :
  option_map (fun p => (plan_timeline p, plan_phases p, plan_resources_needed p,
                        plan_customization_level p))
    (generate_implementation_plan answered_system)
  = option_map (fun p => (plan_timeline p, plan_phases p, plan_resources_needed p,
                          plan_customization_level p))
      (generate_implementation_plan
         (fst (submit_response answered_system "q5.1.2" (JStr "expert") JNull "t"))).
Proof.
  apply generate_implementation_plan_timeline_only; [reflexivity|].
  vm_compute. reflexivity.
Defined.

End Lowercasing.

Open Scope list_scope.

(** ** Concrete runs of template matching

    The lemmas below run the model with [ascii_lower] for [str.lower], on
    answers and tags where the two agree. *)

Example match_full_ex :
  calculate_template_match_score ascii_lower answered_system (hd (mkTemplate "" "" [] [] [] [] [] [] None None) MOCK_TEMPLATES)
  = Some 100%Z.
Proof. reflexivity. Qed.

Lemma calculate_template_match_score_spec_witness :
  style_ok (user_responses answered_system)
  /\ calculate_template_match_score ascii_lower answered_system (hd (mkTemplate "" "" [] [] [] [] [] [] None None) MOCK_TEMPLATES)
     = Some 100%Z.
Proof.
  assert (Hok : style_ok (user_responses answered_system)).
  { intros e He. vm_compute in He. injection He as <-. eexists. reflexivity. }
  split; [exact Hok|].
  apply (proj2 (proj2 (calculate_template_match_score_spec ascii_lower answered_system _) Hok)).
  vm_compute. reflexivity.
Defined.

Lemma calculate_template_match_score_noninterference_witness :
  let s2 := submit_all answered_system [("q3.1.1", JStr "other"); ("q5.1.2", JStr "expert")] in
  (forall k, In k ["q2.1.1"; "q1.3.2"; "q1.1.1"; "q2.2.1"] ->
             dict_get k (user_responses answered_system) = dict_get k (user_responses s2))
  /\ calculate_template_match_score ascii_lower answered_system (hd (mkTemplate "" "" [] [] [] [] [] [] None None) MOCK_TEMPLATES)
     = calculate_template_match_score ascii_lower s2 (hd (mkTemplate "" "" [] [] [] [] [] [] None None) MOCK_TEMPLATES).
Proof.
  intro s2.
  assert (H : forall k, In k ["q2.1.1"; "q1.3.2"; "q1.1.1"; "q2.2.1"] ->
             dict_get k (user_responses answered_system) = dict_get k (user_responses s2)).
  { intros k Hk. simpl in Hk.
    destruct Hk as [<-|[<-|[<-|[<-|[]]]]]; vm_compute; reflexivity. }
  split; [exact H|]. exact (calculate_template_match_score_noninterference ascii_lower _ _ _ H).
Defined.

Lemma match_score_case_handling_witness :
  let L := user_responses answered_system in
  let t := hd (mkTemplate "" "" [] [] [] [] [] [] None None) MOCK_TEMPLATES in
  (dict_get "q2.1.1" L = Some (mkEntry "q2.1.1" (JStr "Minimal") JNull "2026-01-01T00:00:00")
   /\ exists mf, compute_match_factors ascii_lower L t = Some mf
                 /\ (style_match mf = 25%Z <-> In (ascii_lower "Minimal") (style_tags t)))
  /\ ascii_lower "Minimal" <> "Minimal".
Proof.
  intros L t.
  assert (He : dict_get "q2.1.1" L
               = Some (mkEntry "q2.1.1" (JStr "Minimal") JNull "2026-01-01T00:00:00")).
  { vm_compute. reflexivity. }
  split.
  - split; [exact He|].
    exact (proj1 (match_score_case_handling ascii_lower L t) _ "Minimal" He eq_refl).
  - apply (proj1 (proj2 (match_score_case_handling ascii_lower L t)) ascii_lower_no_upper).
    vm_compute. reflexivity.
Defined.

(** C10 (counterexample): U+210C, the black-letter capital H, is an
    uppercase letter (Unicode category Lu) with no lowercase mapping, so
    [str.lower] leaves it unchanged, as [ascii_lower] does. A template
    whose only style tag is that capital is matched by the answer written
    with it, and scores 25 for style: a tag containing an uppercase letter
    can be matched. *)
Lemma match_score_uncased_capital :
  ascii_lower "ℌ" = "ℌ"
  /\ compute_match_factors ascii_lower
       (user_responses (submit_all fresh_system [("q2.1.1", JStr "ℌ")]))
       (mkTemplate "" "" ["ℌ"] [] [] [] [] [] None None)
     = Some (mkFactors 25 0 0 0)
  /\ calculate_template_match_score ascii_lower (submit_all fresh_system [("q2.1.1", JStr "ℌ")])
       (mkTemplate "" "" ["ℌ"] [] [] [] [] [] None None)
     = Some 25%Z.
Proof.
  assert (Hfix : ascii_lower "ℌ" = "ℌ") by reflexivity.
  split; [exact Hfix|]. split.
  - exact (style_match_lower_fixed_point ascii_lower "ℌ" Hfix).
  - vm_compute. reflexivity.
Qed.

Lemma generate_recommendations_spec_witness :
  style_ok (user_responses answered_system)
  /\ option_map (fun p => map match_score (snd p))
       (generate_recommendations ascii_lower answered_system MOCK_TEMPLATES) = Some [100%Z; 75%Z].
Proof.
  assert (Hok : style_ok (user_responses answered_system)).
  { intros e He. vm_compute in He. injection He as <-. eexists. reflexivity. }
  split; [exact Hok|].
  destruct (proj2 (generate_recommendations_spec ascii_lower answered_system MOCK_TEMPLATES) Hok)
    as (s' & top & Hgen & _).
  rewrite Hgen. vm_compute in Hgen. injection Hgen as _ <-. reflexivity.
Defined.

(** C2 (counterexample): with a list recorded for [q2.1.1],
    [calculate_template_match_score] raises ([list] has no [.lower()])
    instead of returning a sum of the four contributions; the raise
    happens before any lowercasing, whatever [str.lower] is. *)
Lemma calculate_template_match_score_non_string_style :
  calculate_template_match_score ascii_lower list_style_system
    (hd (mkTemplate "" "" [] [] [] [] [] [] None None) MOCK_TEMPLATES) = None.
Proof. vm_compute. reflexivity. Qed.

(** C4 (counterexample): on the same ledger [generate_recommendations]
    raises on the mock catalog and returns no list. *)
Lemma generate_recommendations_non_string_style :
  generate_recommendations ascii_lower list_style_system MOCK_TEMPLATES = None.
Proof. vm_compute. reflexivity. Qed.

Lemma scores_of_empty_ledger_witness :
  calculate_profile_score fresh_system content_goals == 0
  /\ calculate_template_match_score ascii_lower fresh_system
       (hd (mkTemplate "" "" [] [] [] [] [] [] None None) MOCK_TEMPLATES) = Some 0%Z.
Proof.
  destruct (scores_of_empty_ledger ascii_lower fresh_system eq_refl
              ltac:(intros []; vm_compute; discriminate)) as [Hp Hm].
  split; [apply Hp | apply Hm].
Defined.

Lemma generate_recommendations_best_first_witness :
  exists s' top, generate_recommendations ascii_lower answered_system MOCK_TEMPLATES = Some (s', top)
    /\ length top = 2%nat.
Proof.
  eexists _, _. split; [vm_compute; reflexivity|].
  exact (proj1 (generate_recommendations_best_first ascii_lower answered_system MOCK_TEMPLATES _ _
                  ltac:(vm_compute; reflexivity))).
Defined.
